(** * NTrip: the NTRIP caster (main.go) and its client (client.go)

    A shallow embedding of the stream-distribution core of the repository:
    the client's handshake and relay loop ([Client]), and the server's
    start-up, accept path, per-connection handler and broadcast loop
    ([Server]).  Calls into the operating system (dial, create, read,
    write, accept) take their results from an explicit environment, and
    their effects are recorded in an explicit world. *)

From Stdlib Require Import String Ascii NArith.
From stdpp Require Import gmap strings list functions pretty.

Local Open Scope string_scope.

(** ** Bytes, errors and formatted messages *)

(** Go strings and byte slices are sequences of bytes: [string].  The
    escape [\r\n] of the Go literals is [CRLF]. *)
Definition CRLF : string := String "013" (String "010" EmptyString).

(** [error] values.  [io_EOF] is the sentinel [io.EOF], compared by
    identity in the source; [OSError] is an error handed back by the
    runtime or the operating system; [Errorf] is [fmt.Errorf] with its
    format string and its single argument kept apart. *)
Inductive error : Type :=
  | io_EOF
  | OSError (msg : string)
  | Errorf (format : string) (a : arg)
with arg : Type :=
  | ArgS (s : string)
  | ArgD (n : Z)
  | ArgV (e : error).

(** [err == io.EOF] *)
Definition is_EOF (e : error) : bool :=
  match e with io_EOF => true | _ => false end.

(** A line handed to [log.Printf] / [log.Println]. *)
Record logline := Printf { log_format : string; log_args : list arg }.

(** What a [Read] hands back: [n > 0] bytes, or an error (the bytes that
    may come with an error are ignored by every caller in the source). *)
Inductive ReadResult : Type :=
  | ReadOk (data : string)
  | ReadErr (e : error).

(** What a [Write] hands back: success, or an error after [n] bytes. *)
Inductive WriteResult : Type :=
  | WOk
  | WErr (n : nat) (e : error).

(** The bytes of [data] that a write with result [r] put on the wire. *)
Definition written (r : WriteResult) (data : string) : string :=
  match r with
  | WOk => data
  | WErr n _ => substring 0 n data
  end.

(** How a Go function call ends. *)
Inductive outcome : Type :=
  | Return (err : option error)
  | Panic (msg : string).

(** ** Base64 (RFC 4648), the encoding the Basic scheme of the wire
    protocol names.  It is not part of the source: it is the reference
    the request built by the client is compared with. *)
Module Base64.

Definition alphabet : string :=
  "ABCDEFGHIJKLMNOPQRSTUVWXYZabcdefghijklmnopqrstuvwxyz0123456789+/".

Definition sextet (n : N) : ascii :=
  default "="%char (String.get (N.to_nat (n mod 64)) alphabet).

Definition code (a : ascii) : N := N_of_ascii a.

Fixpoint encode (s : string) : string :=
  match s with
  | EmptyString => EmptyString
  | String a EmptyString =>
      let n := (code a * 65536)%N in
      String (sextet (n / 262144)) (String (sextet (n / 4096)) "==")
  | String a (String b EmptyString) =>
      let n := (code a * 65536 + code b * 256)%N in
      String (sextet (n / 262144)) (String (sextet (n / 4096))
        (String (sextet (n / 64)) "="))
  | String a (String b (String c rest)) =>
      let n := (code a * 65536 + code b * 256 + code c)%N in
      String (sextet (n / 262144)) (String (sextet (n / 4096))
        (String (sextet (n / 64)) (String (sextet n) (encode rest))))
  end.

End Base64.

(** ** The client: client.go *)
Module Client.

Record NtripClient := {
  serverAddr : string;
  mountpoint : string;
  username : string;
  password : string;
  outputFile : string
}.

Definition NewNtripClient (serverAddr mountpoint username password outputFile : string)
  : NtripClient :=
  {| serverAddr := serverAddr; mountpoint := mountpoint; username := username;
     password := password; outputFile := outputFile |}.

(** [s != EmptyString] *)
Definition non_empty (s : string) : bool := negb (String.eqb s EmptyString).

(** The request of [Connect]: the [fmt.Sprintf] calls and the [+=]. *)
Definition request (c : NtripClient) : string :=
  let request := "GET /" +:+ mountpoint c +:+ " HTTP/1.0" +:+ CRLF in
  let request :=
    if non_empty (username c) && non_empty (password c) then
      let auth := username c +:+ ":" +:+ password c in
      request +:+ ("Authorization: Basic " +:+ auth +:+ CRLF)
    else request in
  let request := request +:+ ("User-Agent: NTRIP Client" +:+ CRLF) in
  request +:+ ("Connection: close" +:+ CRLF +:+ CRLF).

(** The request as the wire protocol of the specification words it: the
    credential of the Basic header is [base64(user:pass)]. *)
Definition request_spec (c : NtripClient) : string :=
  "GET /" +:+ mountpoint c +:+ " HTTP/1.0" +:+ CRLF +:+
  (if non_empty (username c) && non_empty (password c) then
     "Authorization: Basic " +:+
       Base64.encode (username c +:+ ":" +:+ password c) +:+ CRLF
   else EmptyString) +:+
  "User-Agent: NTRIP Client" +:+ CRLF +:+
  "Connection: close" +:+ CRLF +:+ CRLF.

(** *** The world of the client *)

(** The system calls [Connect] makes, in the order it makes them. *)
Inductive event : Type :=
  | EvDial (addr : string)
  | EvCreate (path : string)
  | EvConnWrite (data : string)
  | EvConnRead (r : ReadResult)
  | EvFileWrite (path : string) (data : string)
  | EvStdoutWrite (data : string)
  | EvFileClose (path : string)
  | EvConnClose.

Record World := {
  fs : gmap string string;     (* the files on disk and their contents *)
  conn_open : bool;            (* the dialled connection is open *)
  open_files : nat;            (* file handles not yet closed *)
  stdout : string;             (* what was written to os.Stdout *)
  logs : list logline;
  trace : list event
}.

(** What the outside answers to each call. *)
Record Env := {
  dial : option error;              (* net.Dial *)
  create_file : option error;       (* the first os.Create *)
  conn_write : WriteResult;         (* conn.Write of the request *)
  conn_reads : list ReadResult;     (* the successive conn.Read; a server
                                       that has nothing more closes: EOF *)
  create_rtcm : option error;       (* the second os.Create *)
  file_writes : nat -> WriteResult  (* the k-th rtcmFile.Write *)
}.

Definition emit (e : event) (w : World) : World :=
  {| fs := fs w; conn_open := conn_open w; open_files := open_files w;
     stdout := stdout w; logs := logs w; trace := trace w ++ [e] |}.

Definition log_printf (l : logline) (w : World) : World :=
  {| fs := fs w; conn_open := conn_open w; open_files := open_files w;
     stdout := stdout w; logs := logs w ++ [l]; trace := trace w |}.

(** [net.Dial] succeeded. *)
Definition do_dial (addr : string) (w : World) : World :=
  emit (EvDial addr)
    {| fs := fs w; conn_open := true; open_files := open_files w;
       stdout := stdout w; logs := logs w; trace := trace w |}.

(** [conn.Close()] *)
Definition do_conn_close (w : World) : World :=
  emit EvConnClose
    {| fs := fs w; conn_open := false; open_files := open_files w;
       stdout := stdout w; logs := logs w; trace := trace w |}.

(** [os.Create(path)] succeeded: the file exists and is empty. *)
Definition do_create (path : string) (w : World) : World :=
  emit (EvCreate path)
    {| fs := <[path := EmptyString]> (fs w); conn_open := conn_open w;
       open_files := S (open_files w);
       stdout := stdout w; logs := logs w; trace := trace w |}.

(** [f.Close()] *)
Definition do_file_close (path : string) (w : World) : World :=
  emit (EvFileClose path)
    {| fs := fs w; conn_open := conn_open w;
       open_files := pred (open_files w);
       stdout := stdout w; logs := logs w; trace := trace w |}.

(** [f.Write(data)] on the handle of [path], with result [r]. *)
Definition do_file_write (path data : string) (r : WriteResult) (w : World) : World :=
  emit (EvFileWrite path data)
    {| fs := <[path := default EmptyString (fs w !! path) +:+ written r data]> (fs w);
       conn_open := conn_open w; open_files := open_files w;
       stdout := stdout w; logs := logs w; trace := trace w |}.

(** [os.Stdout.Write(data)]; the source ignores its result. *)
Definition do_stdout_write (data : string) (w : World) : World :=
  emit (EvStdoutWrite data)
    {| fs := fs w; conn_open := conn_open w; open_files := open_files w;
       stdout := stdout w +:+ data; logs := logs w; trace := trace w |}.

(** *** Connect *)

(** The loop "Read and save RTCM data".  [k] counts the file writes. *)
Fixpoint relay (c : NtripClient) (env : Env) (k : nat)
    (reads : list ReadResult) (w : World) : option error * World :=
  match reads with
  | [] =>
      let w := emit (EvConnRead (ReadErr io_EOF)) w in
      (None, log_printf (Printf "Connection closed by server" []) w)
  | ReadErr e :: _ =>
      let w := emit (EvConnRead (ReadErr e)) w in
      if is_EOF e then
        (None, log_printf (Printf "Connection closed by server" []) w)
      else (Some (Errorf "error reading RTCM data: %v" (ArgV e)), w)
  | ReadOk data :: reads =>
      let w := emit (EvConnRead (ReadOk data)) w in
      let w := do_file_write (outputFile c) data (file_writes env k) w in
      match file_writes env k with
      | WErr _ e => (Some (Errorf "error writing RTCM data to file: %v" (ArgV e)), w)
      | WOk =>
          let w := do_stdout_write data w in
          let w := log_printf (Printf "Received %d bytes of RTCM data"
                                 [ArgD (Z.of_nat (String.length data))]) w in
          relay c env (S k) reads w
      end
  end.

(** From "Create a buffer for RTCM data" to the end, [defer
    rtcmFile.Close()] included. *)
Definition receive (c : NtripClient) (env : Env) (reads : list ReadResult)
    (w : World) : outcome * World :=
  match create_rtcm env with
  | Some err => (Return (Some (Errorf "failed to create RTCM file: %v" (ArgV err))), w)
  | None =>
      let w := do_create (outputFile c) w in
      let '(r, w) := relay c env 0 reads w in
      (Return r, do_file_close (outputFile c) w)
  end.

(** From "Send NTRIP request" to the greeting check. *)
Definition handshake (c : NtripClient) (env : Env) (w : World) : outcome * World :=
  let w := emit (EvConnWrite (request c)) w in
  match conn_write env with
  | WErr _ err => (Return (Some (Errorf "failed to send request: %v" (ArgV err))), w)
  | WOk =>
      match conn_reads env with
      | [] =>
          (Return (Some (Errorf "failed to read response: %v" (ArgV io_EOF))),
           emit (EvConnRead (ReadErr io_EOF)) w)
      | ReadErr err :: _ =>
          (Return (Some (Errorf "failed to read response: %v" (ArgV err))),
           emit (EvConnRead (ReadErr err)) w)
      | ReadOk response :: reads =>
          let w := emit (EvConnRead (ReadOk response)) w in
          (* response[:3] *)
          if (String.length response <? 3)%nat then
            (Panic "slice bounds out of range", w)
          else if negb (String.eqb (substring 0 3 response) "ICY") then
            (Return (Some (Errorf "invalid server response: %s" (ArgS response))), w)
          else
            let w := log_printf
                       (Printf "Connected to NTRIP server, receiving RTCM data..." []) w in
            receive c env reads w
      end
  end.

(** [Connect], with its two first [defer]s run on every way out. *)
Definition Connect (c : NtripClient) (env : Env) (w : World) : outcome * World :=
  match dial env with
  | Some err => (Return (Some (Errorf "failed to connect to server: %v" (ArgV err))), w)
  | None =>
      let w := do_dial (serverAddr c) w in
      let '(r, w) :=
        match create_file env with
        | Some err =>
            (Return (Some (Errorf "failed to create output file: %v" (ArgV err))), w)
        | None =>
            let w := do_create (outputFile c) w in
            let '(r, w) := handshake c env w in
            (r, do_file_close (outputFile c) w)
        end in
      (r, do_conn_close w)
  end.

(** The calls of a trace that put bytes into the Sink: the output file
    or the secondary output. *)
Definition sink_write (e : event) : bool :=
  match e with
  | EvFileWrite _ _ | EvStdoutWrite _ => true
  | _ => false
  end.

(** The ways the handshake fails that the source reports as errors. *)
Inductive handshake_failure (env : Env) : Prop :=
  | request_write_error n e :
      conn_write env = WErr n e -> handshake_failure env
  | response_read_error e rest :
      conn_write env = WOk -> conn_reads env = ReadErr e :: rest ->
      handshake_failure env
  | response_not_ICY response rest :
      conn_write env = WOk -> conn_reads env = ReadOk response :: rest ->
      (3 <= String.length response)%nat -> substring 0 3 response <> "ICY" ->
      handshake_failure env.

Definition empty_world : World :=
  {| fs := ∅; conn_open := false; open_files := 0; stdout := EmptyString;
     logs := []; trace := [] |}.

(** The same outside, with the bytes of the connection handed over by the
    successive [conn.Read] as [reads] has them: TCP is a byte stream, and
    one response may come in one read or in several. *)
Definition with_reads (reads : list ReadResult) (env : Env) : Env :=
  {| dial := dial env; create_file := create_file env;
     conn_write := conn_write env; conn_reads := reads;
     create_rtcm := create_rtcm env; file_writes := file_writes env |}.

End Client.


(** ** The server: main.go *)
Module Server.

(** *** Configuration and the server object *)

Record ServerSettings := {
  Server_Port : Z;
  Server_Host : string;
  Server_Timeout : Z
}.

Record SerialSettings := {
  Serial_Port : string;
  Serial_BaudRate : Z;
  Serial_DataBits : Z;
  Serial_StopBits : Z;
  Serial_Parity : string
}.

Record Config := {
  Server : ServerSettings;
  Serial : SerialSettings
}.

(** [serial.Parity] and [serial.Config] of the serial library. *)
Inductive Parity : Type := ParityNone | ParityEven | ParityOdd.

Record serial_Config := {
  Name : string;
  Baud : Z;
  Size : Z;                      (* a byte *)
  StopBits : Z;
  SParity : option Parity        (* unset until the switch assigns it *)
}.

(** Connections are numbered in the order the listener accepts them. *)
Abbreviation Conn := nat (only parsing).

Record NtripServer := {
  config : Config;
  port : Z;
  listener : option string;            (* the bound address, or nil *)
  clients : gmap Conn bool;
  serial : option serial_Config        (* the open port, or nil *)
}.

Definition NewNtripServer (config : Config) : NtripServer :=
  {| config := config; port := Server_Port (Server config);
     listener := None; clients := ∅; serial := None |}.

Definition set_clients (m : gmap Conn bool) (s : NtripServer) : NtripServer :=
  {| config := config s; port := port s; listener := listener s;
     clients := m; serial := serial s |}.

Definition set_serial (p : option serial_Config) (s : NtripServer) : NtripServer :=
  {| config := config s; port := port s; listener := listener s;
     clients := clients s; serial := p |}.

Definition set_listener (l : option string) (s : NtripServer) : NtripServer :=
  {| config := config s; port := port s; listener := l;
     clients := clients s; serial := serial s |}.

(** *** The world of the server *)

(** What happened on a socket, oldest first: bytes the server put on the
    wire, bytes the server took from it. *)
Inductive sockev : Type :=
  | Sent (data : string)
  | Recv (data : string).

Record Sock := {
  inbox : string;          (* bytes of the peer not yet read by the server *)
  peer_end : error;        (* what Read reports once [inbox] is drained *)
  hist : list sockev;
  closed : bool            (* closed by the server *)
}.

Record World := {
  serial_open : bool;      (* the serial device is held open *)
  listening : bool;        (* the TCP listener is bound *)
  socks : Conn -> Sock;
  next_conn : Conn;        (* the next connection the listener hands out *)
  serial_reads : nat;      (* calls of s.serial.Read so far *)
  logs : list logline
}.

Definition set_socks (f : Conn -> Sock) (w : World) : World :=
  {| serial_open := serial_open w; listening := listening w; socks := f;
     next_conn := next_conn w; serial_reads := serial_reads w; logs := logs w |}.

Definition log_printf (l : logline) (w : World) : World :=
  {| serial_open := serial_open w; listening := listening w; socks := socks w;
     next_conn := next_conn w; serial_reads := serial_reads w;
     logs := logs w ++ [l] |}.

Definition ErrClosed : error := OSError "use of closed network connection".

(** What the write really returns: the result the network gives, unless
    the server has closed the socket already. *)
Definition write_result (w : World) (c : Conn) (r : WriteResult) : WriteResult :=
  if closed (socks w c) then WErr 0 ErrClosed else r.

(** [conn.Write(data)], the network answering [r]. *)
Definition conn_Write (c : Conn) (data : string) (r : WriteResult) (w : World)
  : WriteResult * World :=
  let sk := socks w c in
  if closed sk then (WErr 0 ErrClosed, w)
  else
    (r, set_socks (<[c := {| inbox := inbox sk; peer_end := peer_end sk;
                             hist := hist sk ++ [Sent (written r data)];
                             closed := false |}]> (socks w)) w).

(** [conn.Read(buf)] with a buffer of one byte. *)
Definition conn_Read1 (c : Conn) (w : World) : ReadResult * World :=
  let sk := socks w c in
  if closed sk then (ReadErr ErrClosed, w)
  else
    match inbox sk with
    | EmptyString => (ReadErr (peer_end sk), w)
    | String b rest =>
        (ReadOk (String b EmptyString),
         set_socks (<[c := {| inbox := rest; peer_end := peer_end sk;
                              hist := hist sk ++ [Recv (String b EmptyString)];
                              closed := false |}]> (socks w)) w)
    end.

(** [conn.Close()] *)
Definition conn_Close (c : Conn) (w : World) : World :=
  let sk := socks w c in
  set_socks (<[c := {| inbox := inbox sk; peer_end := peer_end sk;
                       hist := hist sk; closed := true |}]> (socks w)) w.

(** The bytes a peer has received, in order. *)
Fixpoint received (h : list sockev) : string :=
  match h with
  | [] => EmptyString
  | Sent d :: h => d +:+ received h
  | Recv _ :: h => received h
  end.

(** *** initSerial and Start *)

Record StartEnv := {
  open_port : serial_Config -> option error;    (* serial.OpenPort *)
  listen : string -> option error               (* net.Listen("tcp", addr) *)
}.

Inductive goroutine : Type := go_readSerialData | go_acceptConnections.

Definition initSerial (env : StartEnv) (s : NtripServer) (w : World)
  : option error * NtripServer * World :=
  let cfg := Serial (config s) in
  let c parity :=
    {| Name := Serial_Port cfg; Baud := Serial_BaudRate cfg;
       Size := (Serial_DataBits cfg mod 256)%Z;
       StopBits := Serial_StopBits cfg; SParity := parity |} in
  let open c :=
    match open_port env c with
    | Some err =>
        (Some (Errorf "failed to open serial port: %v" (ArgV err)),
         set_serial None s, w)
    | None =>
        (None, set_serial (Some c) s,
         log_printf (Printf "Serial port %s opened at %d baud"
                       [ArgS (Serial_Port cfg); ArgD (Serial_BaudRate cfg)])
           {| serial_open := true; listening := listening w; socks := socks w;
              next_conn := next_conn w; serial_reads := serial_reads w;
              logs := logs w |})
    end in
  if String.eqb (Serial_Parity cfg) "N" then open (c (Some ParityNone))
  else if String.eqb (Serial_Parity cfg) "E" then open (c (Some ParityEven))
  else if String.eqb (Serial_Parity cfg) "O" then open (c (Some ParityOdd))
  else (Some (Errorf "invalid parity setting: %s" (ArgS (Serial_Parity cfg))), s, w).

(** [fmt.Sprintf("%s:%d", s.config.Server.Host, s.port)] *)
Definition bindAddr (s : NtripServer) : string :=
  Server_Host (Server (config s)) +:+ ":" +:+ pretty (port s).

Definition Start (env : StartEnv) (s : NtripServer) (w : World)
  : option error * NtripServer * World * list goroutine :=
  match initSerial env s w with
  | (Some err, s, w) => (Some err, s, w, [])
  | (None, s, w) =>
      let bindAddr := bindAddr s in
      match listen env bindAddr with
      | Some err =>
          (Some (Errorf "failed to start server: %v" (ArgV err)),
           set_listener None s, w, [])
      | None =>
          let s := set_listener (Some bindAddr) s in
          let w :=
            log_printf (Printf "NTRIP server started on %s" [ArgS bindAddr])
              {| serial_open := serial_open w; listening := true;
                 socks := socks w; next_conn := next_conn w;
                 serial_reads := serial_reads w; logs := logs w |} in
          (None, s, w, [go_readSerialData; go_acceptConnections])
      end
  end.

(** *** readSerialData: the broadcast loop *)

(** One turn of the body of [for conn := range s.clients]. *)
Definition deliver (c : Conn) (data : string) (r : WriteResult)
    (s : NtripServer) (w : World) : NtripServer * World :=
  let '(res, w) := conn_Write c data r w in
  match res with
  | WOk => (s, w)
  | WErr _ err =>
      let w := log_printf (Printf "Error writing to client: %v" [ArgV err]) w in
      let w := conn_Close c w in
      (set_clients (delete c (clients s)) s, w)
  end.

(** [for conn := range s.clients]: Go visits the keys in an order of its
    own choosing, [order], and does not produce a key that was removed
    before it was reached.  [wr c] is what the network answers to the
    write on [c]. *)
Fixpoint range_clients (order : list Conn) (data : string)
    (wr : Conn -> WriteResult) (s : NtripServer) (w : World)
  : NtripServer * World :=
  match order with
  | [] => (s, w)
  | c :: order =>
      let '(s, w) :=
        match clients s !! c with
        | Some _ => deliver c data (wr c) s w
        | None => (s, w)
        end in
      range_clients order data wr s w
  end.

(** [order] is an order in which Go may range over the map [m]. *)
Definition range_order (m : gmap Conn bool) (order : list Conn) : Prop :=
  NoDup order ∧ list_to_set order = dom m.

(** One turn of the outer [for]: what the serial read returned, and for
    the round it starts, the order of the range and the answers of the
    network. *)
Record turn := {
  rd : ReadResult;
  order : list Conn;
  wr : Conn -> WriteResult
}.

(** How a turn of a [for] loop ends: it goes on with the next turn
    ([continue], or the end of the body), or leaves the loop. *)
Inductive flow : Type := Next | Exit.

Definition count_read (w : World) : World :=
  {| serial_open := serial_open w; listening := listening w; socks := socks w;
     next_conn := next_conn w; serial_reads := S (serial_reads w);
     logs := logs w |}.

Definition readSerialData_body (t : turn) (s : NtripServer) (w : World)
  : flow * NtripServer * World :=
  let w := count_read w in
  match rd t with
  | ReadErr err =>
      (Next, s, log_printf (Printf "Error reading from serial port: %v" [ArgV err]) w)
  | ReadOk data =>
      let '(s, w) := range_clients (order t) data (wr t) s w in
      (Next, s, w)
  end.

(** The loop, run on the turns the outside provides. *)
Fixpoint readSerialData (turns : list turn) (s : NtripServer) (w : World)
  : flow * NtripServer * World :=
  match turns with
  | [] => (Next, s, w)
  | t :: turns =>
      match readSerialData_body t s w with
      | (Next, s, w) => readSerialData turns s w
      | (Exit, s, w) => (Exit, s, w)
      end
  end.

(** *** handleClient *)

Definition header : string := "ICY 200 OK" +:+ CRLF.

(** The loop "Keep connection alive".  It recurses on the bytes that were
    pending when it started: each successful read takes one of them. *)
Fixpoint keep_alive (pending : string) (c : Conn) (w : World) : World :=
  let '(r, w) := conn_Read1 c w in
  match r with
  | ReadErr err =>
      if is_EOF err then w
      else log_printf (Printf "Error reading from client: %v" [ArgV err]) w
  | ReadOk _ =>
      match pending with
      | EmptyString => w
      | String _ pending => keep_alive pending c w
      end
  end.

(** [handleClient(conn)], the network answering [gr] to the write of the
    header; the deferred function runs on both ways out. *)
Definition handleClient (c : Conn) (gr : WriteResult) (s : NtripServer) (w : World)
  : NtripServer * World :=
  let '(res, w) := conn_Write c header gr w in
  let w :=
    match res with
    | WErr _ err =>
        log_printf (Printf "Error sending header to client: %v" [ArgV err]) w
    | WOk => keep_alive (inbox (socks w c)) c w
    end in
  (set_clients (delete c (clients s)) s, conn_Close c w).

(** *** acceptConnections and the goroutines, interleaved

    [Start] leaves three kinds of goroutines running over the same
    [NtripServer]: the broadcast loop, the accept loop, and one
    [handleClient] per accepted connection.  Each is a small machine whose
    steps are the statements of its source; a schedule picks, step after
    step, which goroutine moves and what the outside answers.  The source
    takes no lock anywhere, so no step ever waits for another goroutine. *)

(** Where [readSerialData] stands: at the serial read, or inside the range
    over the clients with the keys still to visit.  A key added to the
    map while the range is under way may or may not be produced by Go;
    here it is not. *)
Inductive bpc : Type :=
  | BRead
  | BRange (data : string) (pending : list Conn).

(** Where [acceptConnections] stands: at [Accept], before
    [s.clients[conn] = true], or before [go s.handleClient(conn)]. *)
Inductive apc : Type :=
  | AAccept
  | ARegister (c : Conn)
  | ASpawn (c : Conn).

(** Where a [handleClient] stands: before the header, in the keep-alive
    loop, or at its deferred function. *)
Inductive hpc : Type :=
  | HGreet
  | HWatch
  | HDefer.

Record Sys := {
  srv : NtripServer;
  world : World;
  bcast : bpc;
  acc : apc;
  handlers : gmap Conn hpc
}.

Inductive choice : Type :=
  | SerialRead (r : ReadResult) (order : list Conn)
      (* readSerialData: the read returns [r]; a range starts in [order] *)
  | Iterate (r : WriteResult)
      (* readSerialData: one turn of the range, the write answering [r] *)
  | Accept (r : option error) (request : string) (peer : error)
      (* acceptConnections: Accept returns; the peer will send [request]
         and its stream will then end with [peer] *)
  | Register
      (* acceptConnections: s.clients[conn] = true *)
  | Spawn
      (* acceptConnections: go s.handleClient(conn) *)
  | Handle (c : Conn) (gr : WriteResult)
      (* handleClient(c): its next statement; [gr] answers the header *).

#[global] Instance range_order_dec (m : gmap Conn bool) (order : list Conn) :
  Decision (range_order m order).
Proof. unfold range_order. apply _. Defined.

Definition range_pc (data : string) (pending : list Conn) : bpc :=
  match pending with
  | [] => BRead
  | _ => BRange data pending
  end.

Definition accepted (request : string) (peer : error) : Sock :=
  {| inbox := request; peer_end := peer; hist := []; closed := false |}.

Definition step (ch : choice) (σ : Sys) : option Sys :=
  let s := srv σ in
  let w := world σ in
  match ch with
  | SerialRead r order =>
      match bcast σ with
      | BRead =>
          let w := count_read w in
          match r with
          | ReadErr err =>
              let w := log_printf
                         (Printf "Error reading from serial port: %v" [ArgV err]) w in
              Some {| srv := s; world := w; bcast := BRead; acc := acc σ;
                      handlers := handlers σ |}
          | ReadOk data =>
              if decide (range_order (clients s) order) then
                Some {| srv := s; world := w; bcast := range_pc data order;
                        acc := acc σ; handlers := handlers σ |}
              else None
          end
      | BRange _ _ => None
      end
  | Iterate r =>
      match bcast σ with
      | BRange data (c :: pending) =>
          let '(s, w) :=
            match clients s !! c with
            | Some _ => deliver c data r s w
            | None => (s, w)
            end in
          Some {| srv := s; world := w; bcast := range_pc data pending;
                  acc := acc σ; handlers := handlers σ |}
      | _ => None
      end
  | Accept r request peer =>
      match acc σ with
      | AAccept =>
          match r with
          | Some err =>
              let w := log_printf
                         (Printf "Error accepting connection: %v" [ArgV err]) w in
              Some {| srv := s; world := w; bcast := bcast σ; acc := AAccept;
                      handlers := handlers σ |}
          | None =>
              let conn := next_conn w in
              let w :=
                {| serial_open := serial_open w; listening := listening w;
                   socks := <[conn := accepted request peer]> (socks w);
                   next_conn := S conn; serial_reads := serial_reads w;
                   logs := logs w |} in
              Some {| srv := s; world := w; bcast := bcast σ;
                      acc := ARegister conn; handlers := handlers σ |}
          end
      | _ => None
      end
  | Register =>
      match acc σ with
      | ARegister conn =>
          Some {| srv := set_clients (<[conn := true]> (clients s)) s;
                  world := w; bcast := bcast σ; acc := ASpawn conn;
                  handlers := handlers σ |}
      | _ => None
      end
  | Spawn =>
      match acc σ with
      | ASpawn conn =>
          Some {| srv := s; world := w; bcast := bcast σ; acc := AAccept;
                  handlers := <[conn := HGreet]> (handlers σ) |}
      | _ => None
      end
  | Handle c gr =>
      match handlers σ !! c with
      | Some HGreet =>
          let '(res, w) := conn_Write c header gr w in
          match res with
          | WErr _ err =>
              let w := log_printf
                         (Printf "Error sending header to client: %v" [ArgV err]) w in
              Some {| srv := s; world := w; bcast := bcast σ; acc := acc σ;
                      handlers := <[c := HDefer]> (handlers σ) |}
          | WOk =>
              Some {| srv := s; world := w; bcast := bcast σ; acc := acc σ;
                      handlers := <[c := HWatch]> (handlers σ) |}
          end
      | Some HWatch =>
          let '(r, w) := conn_Read1 c w in
          match r with
          | ReadErr err =>
              let w :=
                if is_EOF err then w
                else log_printf
                       (Printf "Error reading from client: %v" [ArgV err]) w in
              Some {| srv := s; world := w; bcast := bcast σ; acc := acc σ;
                      handlers := <[c := HDefer]> (handlers σ) |}
          | ReadOk _ =>
              Some {| srv := s; world := w; bcast := bcast σ; acc := acc σ;
                      handlers := <[c := HWatch]> (handlers σ) |}
          end
      | Some HDefer =>
          Some {| srv := set_clients (delete c (clients s)) s;
                  world := conn_Close c w; bcast := bcast σ; acc := acc σ;
                  handlers := delete c (handlers σ) |}
      | None => None
      end
  end.

(** A schedule, run from [σ]; [None] when it asks for a step that the
    goroutine it names cannot take. *)
Fixpoint run (schedule : list choice) (σ : Sys) : option Sys :=
  match schedule with
  | [] => Some σ
  | ch :: schedule =>
      match step ch σ with
      | Some σ => run schedule σ
      | None => None
      end
  end.

(** The range over the clients is under way. *)
Definition iterating (σ : Sys) : bool :=
  match bcast σ with
  | BRange _ _ => true
  | BRead => false
  end.

(** The step writes the clients map from outside the broadcast loop:
    the accept loop adds, a [handleClient] removes. *)
Definition mutates (ch : choice) (σ : Sys) : bool :=
  match ch with
  | Register => true
  | Handle c _ =>
      match handlers σ !! c with
      | Some HDefer => true
      | _ => false
      end
  | _ => false
  end.

(** A socket no connection has been accepted on. *)
Definition no_sock : Sock :=
  {| inbox := EmptyString; peer_end := ErrClosed; hist := []; closed := true |}.

(** The world before [Start], and the system [Start] leaves running when
    it has returned nil. *)
Definition fresh_world : World :=
  {| serial_open := false; listening := false; socks := λ _, no_sock;
     next_conn := 0; serial_reads := 0; logs := [] |}.

Definition running (s : NtripServer) (w : World) : Sys :=
  {| srv := s; world := w; bcast := BRead; acc := AAccept; handlers := ∅ |}.

(** The first bytes the server put on a socket. *)
Fixpoint first_sent (h : list sockev) : option string :=
  match h with
  | [] => None
  | Sent d :: _ => Some d
  | Recv _ :: h => first_sent h
  end.

(** The reads of a one-byte buffer that drain [s]. *)
Fixpoint bytes (s : string) : list string :=
  match s with
  | EmptyString => []
  | String b s => String b EmptyString :: bytes s
  end.

(** The bytes the server had read from a socket when it first wrote. *)
Fixpoint read_before_sent (h : list sockev) : string :=
  match h with
  | [] => EmptyString
  | Sent _ :: _ => EmptyString
  | Recv d :: h => d +:+ read_before_sent h
  end.

(** What the specification asks of the accept path, read on the history
    of a socket: the first bytes written are the greeting; the request
    line [line] was read before anything was written. *)
Definition greeting_first (h : list sockev) : bool :=
  match first_sent h with
  | Some d => String.eqb d header
  | None => true
  end.

Definition consumed_before_greeting (line : string) (h : list sockev) : bool :=
  String.prefix line (read_before_sent h).

End Server.

(** ** Concrete clients, servers and schedules *)
Module Scenario.

Import Client Server.

Definition alice : NtripClient :=
  NewNtripClient "localhost:2101" "RTCM3" "alice" "secret" "rtcm_data.bin".

Definition anonymous : NtripClient :=
  NewNtripClient "localhost:2101" "RTCM3" EmptyString EmptyString "rtcm_data.bin".

(** A server that answers the request with [response] and closes. *)
Definition answering (response : string) : Env :=
  {| dial := None; create_file := None; conn_write := WOk;
     conn_reads := [ReadOk response]; create_rtcm := None;
     file_writes := λ _, WOk |}.

(** A server that resets the connection once it has the request. *)
Definition resetting : Env :=
  {| dial := None; create_file := None; conn_write := WOk;
     conn_reads := [ReadErr (OSError "connection reset by peer")];
     create_rtcm := None; file_writes := λ _, WOk |}.

(** A disk that already holds data under the name of the output file. *)
Definition old_world : Client.World :=
  {| Client.fs := {[ "rtcm_data.bin" := "old data" ]};
     Client.conn_open := false; Client.open_files := 0; Client.stdout := EmptyString;
     Client.logs := []; Client.trace := [] |}.

Definition settings : Config :=
  {| Server := {| Server_Port := 2101; Server_Host := "0.0.0.0";
                  Server_Timeout := 30 |};
     Serial := {| Serial_Port := "/dev/ttyUSB0"; Serial_BaudRate := 115200;
                  Serial_DataBits := 8; Serial_StopBits := 1;
                  Serial_Parity := "N" |} |}.

(** The serial port opens, the TCP port is taken. *)
Definition port_taken : StartEnv :=
  {| open_port := λ _, None;
     listen := λ _, Some (OSError "bind: address already in use") |}.

Definition server0 : NtripServer := NewNtripServer settings.

(** A server with the subscribers 0, 1 and 2, all three connected. *)
Definition three_socks : Server.World :=
  {| serial_open := true; listening := true;
     socks := λ _, accepted EmptyString io_EOF;
     next_conn := 3; serial_reads := 0; logs := [] |}.

Definition three_clients : NtripServer :=
  set_clients (<[0 := true]> (<[1 := true]> (<[2 := true]> ∅))) server0.

(** The write to subscriber 1 fails; the others take the chunk. *)
Definition one_fails (c : Conn) : WriteResult :=
  if decide (c = 1) then WErr 0 (OSError "broken pipe") else WOk.

Definition unplugged : turn :=
  {| rd := ReadErr (OSError "input/output error"); order := []; wr := λ _, WOk |}.

Definition chunk_AB : turn :=
  {| rd := ReadOk "AB"; order := [2; 0; 1]; wr := λ _, WOk |}.

(** A connection whose peer has sent the request of [alice]. *)
Definition one_sock : Server.World :=
  {| serial_open := true; listening := true;
     socks := <[0 := accepted (request alice) io_EOF]> (λ _, no_sock);
     next_conn := 1; serial_reads := 0; logs := [] |}.

Definition one_client : NtripServer := set_clients {[ 0 := true ]} server0.

(** Two subscribers are in; a chunk is read and the range starts; the
    first subscriber is served; a third connection is accepted.  The
    handler of subscriber 1 has seen its peer leave and stands at its
    deferred function. *)
Definition mid_round : list choice :=
  [ Accept None EmptyString io_EOF; Register; Spawn; Handle 0 WOk;
    Accept None EmptyString io_EOF; Register; Spawn; Handle 1 WOk; Handle 1 WOk;
    SerialRead (ReadOk "AB") [0; 1]; Iterate WOk;
    Accept None EmptyString io_EOF ].

(** A connection is accepted and registered; before its handler has
    written the header, a chunk is read and broadcast. *)
Definition data_first : list choice :=
  [ Accept None (request alice) io_EOF; Register; Spawn;
    SerialRead (ReadOk "AB") [0]; Iterate WOk;
    Handle 0 WOk ].

(** The serial port opens and the TCP port is free: the system [Start]
    leaves running. *)
Definition all_fine : StartEnv :=
  {| open_port := λ _, None; listen := λ _, None |}.

Definition started : Sys :=
  let '(_, s, w, _) := Start all_fine server0 fresh_world in
  running s w.

End Scenario.

(** * Properties *)

Local Close Scope string_scope.

(** ** The client *)
Section ClientProperties.

Import Client.

Example base64_alice : Base64.encode "alice:secret" = "YWxpY2U6c2VjcmV0".
Proof. reflexivity. Qed.

Example base64_one_pad : Base64.encode "ab" = "YWI=".
Proof. reflexivity. Qed.

Example base64_two_pads : Base64.encode "a" = "YQ==".
Proof. reflexivity. Qed.

Lemma string_app_assoc (s1 s2 s3 : string) :
  (s1 +:+ s2) +:+ s3 = s1 +:+ s2 +:+ s3.
Proof.
  induction s1 as [| a s1 IH]; [done |].
  change (String a ((s1 +:+ s2) +:+ s3) = String a (s1 +:+ s2 +:+ s3)).
  by rewrite IH.
Qed.

Lemma string_app_length (s1 s2 : string) :
  String.length (s1 +:+ s2) = String.length s1 + String.length s2.
Proof.
  induction s1 as [| a s1 IH]; [done |].
  change (S (String.length (s1 +:+ s2)) = S (String.length s1 + String.length s2)).
  by rewrite IH.
Qed.

(** The Authorization header is there exactly when both credentials are
    non-empty, and its value is the credentials as they are. *)
Lemma request_with_credentials (c : NtripClient) :
  username c ≠ EmptyString → password c ≠ EmptyString →
  request c =
    ("GET /" +:+ mountpoint c +:+ " HTTP/1.0" +:+ CRLF) +:+
    ("Authorization: Basic " +:+ username c +:+ ":" +:+ password c +:+ CRLF) +:+
    ("User-Agent: NTRIP Client" +:+ CRLF) +:+
    ("Connection: close" +:+ CRLF +:+ CRLF).
Proof.
  intros Hu Hp. unfold request, non_empty.
  destruct (String.eqb_spec (username c) EmptyString); [done |].
  destruct (String.eqb_spec (password c) EmptyString); [done |].
  simpl. by rewrite !string_app_assoc.
Qed.

Lemma request_without_credentials (c : NtripClient) :
  username c = EmptyString ∨ password c = EmptyString →
  request c =
    ("GET /" +:+ mountpoint c +:+ " HTTP/1.0" +:+ CRLF) +:+
    ("User-Agent: NTRIP Client" +:+ CRLF) +:+
    ("Connection: close" +:+ CRLF +:+ CRLF).
Proof.
  intros H. unfold request, non_empty.
  destruct (String.eqb_spec (username c) EmptyString) as [Hu | Hu];
    destruct (String.eqb_spec (password c) EmptyString) as [Hp | Hp]; simpl;
    try (by rewrite !string_app_assoc).
  by destruct H.
Qed.

(** C3: with the user name [alice] and the password [secret], the request
    the client sends carries [Authorization: Basic alice:secret], the
    credentials in clear, where the wire protocol has their base64
    encoding [YWxpY2U6c2VjcmV0]. *)
Theorem C3_authorization_is_not_base64 :
  request Scenario.alice =
    "GET /RTCM3 HTTP/1.0" +:+ CRLF +:+
    "Authorization: Basic alice:secret" +:+ CRLF +:+
    "User-Agent: NTRIP Client" +:+ CRLF +:+
    "Connection: close" +:+ CRLF +:+ CRLF
  ∧ request_spec Scenario.alice =
    "GET /RTCM3 HTTP/1.0" +:+ CRLF +:+
    "Authorization: Basic YWxpY2U6c2VjcmV0" +:+ CRLF +:+
    "User-Agent: NTRIP Client" +:+ CRLF +:+
    "Connection: close" +:+ CRLF +:+ CRLF
  ∧ request Scenario.alice ≠ request_spec Scenario.alice
  ∧ request Scenario.anonymous = request_spec Scenario.anonymous.
Proof. repeat split; try reflexivity. vm_compute. discriminate. Qed.

(** The base64 text of a non-empty string is longer than the string. *)
Lemma base64_longer :
  ∀ s, (String.length s ≤ String.length (Base64.encode s))%nat
       ∧ (s ≠ EmptyString → (String.length s < String.length (Base64.encode s))%nat).
Proof.
  fix IH 1. intros [| a [| b [| c rest]]].
  - split; [done | congruence].
  - cbn [Base64.encode String.length]. lia.
  - cbn [Base64.encode String.length]. lia.
  - destruct (IH rest) as [Hle _].
    cbn [Base64.encode String.length]. lia.
Qed.

(** Whatever the non-empty credentials, the request sent is not the one
    of the wire protocol. *)
Lemma request_never_base64 (c : NtripClient) :
  username c ≠ EmptyString → password c ≠ EmptyString → request c ≠ request_spec c.
Proof.
  intros Hu Hp Heq. rewrite request_with_credentials in Heq by done.
  unfold request_spec, non_empty in Heq.
  destruct (String.eqb_spec (username c) EmptyString); [done |].
  destruct (String.eqb_spec (password c) EmptyString); [done |].
  cbn [negb andb] in Heq.
  apply (f_equal String.length) in Heq.
  rewrite !string_app_length in Heq.
  destruct (base64_longer (username c +:+ ":" +:+ password c)) as [_ Hlt].
  rewrite !string_app_length in Hlt.
  assert (username c +:+ ":" +:+ password c ≠ EmptyString) as Hne.
  { intros E. apply (f_equal String.length) in E.
    rewrite !string_app_length in E. cbn [String.length] in E. lia. }
  specialize (Hlt Hne). cbn [String.length] in *. lia.
Qed.

(** The loop of [Connect] returns: it never panics. *)
Lemma receive_returns (c : NtripClient) (env : Env) reads (w : World) :
  ∃ r, (receive c env reads w).1 = Return r.
Proof.
  unfold receive. destruct (create_rtcm env); [by eexists |].
  destruct (relay c env 0 reads _). by eexists.
Qed.

(** When the first read of the response returns at least three bytes
    and they are not [ICY], [Connect] returns an error, the connection is
    closed, and nothing is written to the Sink: no call in the trace
    writes to the output file or to the standard output, the output file
    is as [os.Create] left it and the standard output is untouched. *)
Lemma long_non_ICY_read_rejected
    (c : NtripClient) (env : Env) (w : World) (response : string)
    (rest : list ReadResult) :
  dial env = None → create_file env = None → conn_write env = WOk →
  conn_reads env = ReadOk response :: rest →
  (3 ≤ String.length response)%nat → substring 0 3 response ≠ "ICY" →
  ∃ w' calls,
    Connect c env w =
      (Return (Some (Errorf "invalid server response: %s" (ArgS response))), w')
    ∧ conn_open w' = false
    ∧ trace w' = trace w ++ calls
    ∧ existsb sink_write calls = false
    ∧ fs w' = <[outputFile c := EmptyString]> (fs w)
    ∧ stdout w' = stdout w.
Proof.
  intros Hd Hc Hw Hr Hlen Hicy.
  unfold Connect, handshake. rewrite Hd, Hc, Hw, Hr.
  destruct (Nat.ltb_spec (String.length response) 3) as [? | _]; [lia |].
  destruct (String.eqb_spec (substring 0 3 response) "ICY") as [? | _]; [done |].
  cbn [negb]. eexists _, _. split; [reflexivity |].
  cbn. rewrite <- !app_assoc. repeat split; reflexivity.
Qed.

(** C5: a response whose first three bytes are not [ICY] is answered
    with an error only when the first [conn.Read] hands over three bytes
    of it or more.  Take such a response, [first] followed by [more].
    Read in one piece, [Connect] returns the [invalid server response]
    error.  Read in two pieces, the first shorter than three bytes,
    [response[:3]] is out of range: [Connect] panics and returns no
    error.  The deferred closes run on the way out of the panic, so the
    connection is closed, and nothing has been written to the Sink. *)
Theorem C5_short_first_read_returns_no_error
    (c : NtripClient) (env : Env) (w : World) (first more : string)
    (rest : list ReadResult) :
  dial env = None → create_file env = None → conn_write env = WOk →
  (String.length first < 3)%nat →
  (3 ≤ String.length (first +:+ more))%nat →
  substring 0 3 (first +:+ more) ≠ "ICY" →
  (∃ w',
     Connect c (with_reads (ReadOk (first +:+ more) :: rest) env) w =
       (Return (Some (Errorf "invalid server response: %s"
                        (ArgS (first +:+ more)))), w'))
  ∧ (∃ msg w' calls,
       Connect c (with_reads (ReadOk first :: ReadOk more :: rest) env) w =
         (Panic msg, w')
       ∧ conn_open w' = false
       ∧ trace w' = trace w ++ calls
       ∧ existsb sink_write calls = false
       ∧ fs w' = <[outputFile c := EmptyString]> (fs w)
       ∧ stdout w' = stdout w).
Proof.
  intros Hd Hc Hw Hshort Hlen Hicy. split.
  - unfold Connect, handshake.
    cbn [with_reads dial create_file conn_write conn_reads].
    rewrite Hd, Hc, Hw.
    destruct (Nat.ltb_spec (String.length (first +:+ more)) 3) as [? | _]; [lia |].
    destruct (String.eqb_spec (substring 0 3 (first +:+ more)) "ICY") as [? | _];
      [done |].
    cbn [negb]. by eexists.
  - unfold Connect, handshake.
    cbn [with_reads dial create_file conn_write conn_reads].
    rewrite Hd, Hc, Hw.
    destruct (Nat.ltb_spec (String.length first) 3) as [_ | ?]; [| lia].
    eexists _, _, _. split; [reflexivity |].
    cbn. rewrite <- !app_assoc. repeat split; reflexivity.
Qed.

Lemma C5_witness :
  (∃ w',
     Connect Scenario.alice
       (with_reads [ReadOk ("HT" +:+ "TP/1.0 401 Unauthorized")]
          (Scenario.answering EmptyString))
       Scenario.old_world =
       (Return (Some (Errorf "invalid server response: %s"
                        (ArgS ("HT" +:+ "TP/1.0 401 Unauthorized")))), w'))
  ∧ (∃ msg w' calls,
       Connect Scenario.alice
         (with_reads [ReadOk "HT"; ReadOk "TP/1.0 401 Unauthorized"]
            (Scenario.answering EmptyString))
         Scenario.old_world =
         (Panic msg, w')
       ∧ conn_open w' = false
       ∧ trace w' = trace Scenario.old_world ++ calls
       ∧ existsb sink_write calls = false
       ∧ fs w' = <[outputFile Scenario.alice := EmptyString]> (fs Scenario.old_world)
       ∧ stdout w' = stdout Scenario.old_world).
Proof.
  apply (C5_short_first_read_returns_no_error Scenario.alice
           (Scenario.answering EmptyString) Scenario.old_world
           "HT" "TP/1.0 401 Unauthorized" []);
    [reflexivity | reflexivity | reflexivity | simpl; lia | simpl; lia
    | vm_compute; discriminate].
Defined.

(** C8: the greeting check [response[:3]] is in range only when the first
    read returned at least three bytes.  When the connection, the output
    file and the request went through and the first read returned
    [response] without error, [Connect] panics exactly when [response]
    has fewer than three bytes. *)
Theorem C8_short_response_panics
    (c : NtripClient) (env : Env) (w : World) (response : string)
    (rest : list ReadResult) :
  dial env = None → create_file env = None → conn_write env = WOk →
  conn_reads env = ReadOk response :: rest →
  (∃ msg, (Connect c env w).1 = Panic msg) ↔ (String.length response < 3)%nat.
Proof.
  intros Hd Hc Hw Hr.
  unfold Connect, handshake. rewrite Hd, Hc, Hw, Hr.
  destruct (Nat.ltb_spec (String.length response) 3) as [Hlt | Hge].
  - split; [done |]. intros _. by eexists.
  - split; [| lia]. intros [msg Hp]. exfalso. revert Hp.
    destruct (negb _); [done |].
    match goal with
    | |- context [receive ?c ?e ?r ?w] =>
        destruct (receive_returns c e r w) as [res Hres];
        destruct (receive c e r w) as [o w1]
    end.
    simpl in *. by rewrite Hres.
Qed.

Lemma C8_witness :
  ∃ msg, (Connect Scenario.alice (Scenario.answering "I") empty_world).1 = Panic msg.
Proof.
  apply (C8_short_response_panics Scenario.alice (Scenario.answering "I")
           empty_world "I" []);
    [reflexivity | reflexivity | reflexivity | reflexivity | simpl; lia].
Defined.

(** C9: [Connect] creates the output file, truncating what it held, as
    soon as the connection is made and before it sends the request.  When
    the handshake then fails (the request cannot be written, the response
    cannot be read, or the response does not start with [ICY]),
    [Connect] returns an error and the output file is on disk, empty. *)
Theorem C9_failed_handshake_leaves_empty_file
    (c : NtripClient) (env : Env) (w : World) :
  dial env = None → create_file env = None → handshake_failure env →
  ∃ e w' calls,
    Connect c env w = (Return (Some e), w')
    ∧ fs w' !! outputFile c = Some EmptyString
    ∧ trace w' =
        trace w ++ EvDial (serverAddr c) :: EvCreate (outputFile c)
                :: EvConnWrite (request c) :: calls.
Proof.
  intros Hd Hc Hf. unfold Connect, handshake. rewrite Hd, Hc.
  destruct Hf as [n e Hw | e rest Hw Hr | response rest Hw Hr Hlen Hicy];
    rewrite Hw; try rewrite Hr.
  - eexists _, _, _. split; [reflexivity |]. cbn.
    rewrite lookup_insert_eq, <- !app_assoc. split; reflexivity.
  - eexists _, _, _. split; [reflexivity |]. cbn.
    rewrite lookup_insert_eq, <- !app_assoc. split; reflexivity.
  - destruct (Nat.ltb_spec (String.length response) 3) as [? | _]; [lia |].
    destruct (String.eqb_spec (substring 0 3 response) "ICY") as [? | _]; [done |].
    cbn [negb]. eexists _, _, _. split; [reflexivity |]. cbn.
    rewrite lookup_insert_eq, <- !app_assoc. split; reflexivity.
Qed.

Lemma C9_witness :
  ∃ e w' calls,
    Connect Scenario.alice Scenario.resetting Scenario.old_world
      = (Return (Some e), w')
    ∧ fs w' !! outputFile Scenario.alice = Some EmptyString
    ∧ trace w' =
        trace Scenario.old_world
          ++ EvDial (serverAddr Scenario.alice)
          :: EvCreate (outputFile Scenario.alice)
          :: EvConnWrite (request Scenario.alice) :: calls.
Proof.
  apply (C9_failed_handshake_leaves_empty_file Scenario.alice
           Scenario.resetting Scenario.old_world);
    [reflexivity | reflexivity |].
  apply (response_read_error Scenario.resetting
           (OSError "connection reset by peer") []); reflexivity.
Defined.

End ClientProperties.

(** ** The server: start-up and the broadcast loop *)
Section ServerProperties.

Import Server.

(** When [initSerial] returns nil the port is open and the server holds
    it; nothing but the [serial] field of the server has changed. *)
Lemma initSerial_nil (env : StartEnv) (s : NtripServer) (w : World) :
  (initSerial env s w).1.1 = None →
  ∃ p w1, initSerial env s w = (None, set_serial (Some p) s, w1)
          ∧ serial_open w1 = true ∧ listening w1 = listening w.
Proof.
  unfold initSerial.
  repeat match goal with
         | |- context [String.eqb ?a ?b] => destruct (String.eqb a b)
         end;
    try match goal with
        | |- context [open_port ?e ?c] => destruct (open_port e c)
        end; cbn; intros H; try discriminate; by eexists _, _.
Qed.

(** C10: when the serial port has been opened and the TCP listen then
    fails, [Start] returns the listen error, starts no goroutine, and
    leaves the serial port open and held by the server. *)
Theorem C10_Start_leaves_serial_open
    (env : StartEnv) (s : NtripServer) (w : World) (e : error) :
  (initSerial env s w).1.1 = None →
  listen env (bindAddr s) = Some e →
  ∃ p s' w',
    Start env s w =
      (Some (Errorf "failed to start server: %v" (ArgV e)), s', w', [])
    ∧ serial s' = Some p
    ∧ serial_open w' = true
    ∧ listener s' = None
    ∧ listening w' = listening w.
Proof.
  intros Hs Hl. destruct (initSerial_nil env s w Hs) as (p & w1 & E & Ho & Hk).
  unfold Start. rewrite E.
  change (bindAddr (set_serial (Some p) s)) with (bindAddr s). rewrite Hl.
  by eexists p, _, w1.
Qed.

Lemma C10_witness :
  ∃ p s' w',
    Start Scenario.port_taken Scenario.server0 fresh_world =
      (Some (Errorf "failed to start server: %v"
               (ArgV (OSError "bind: address already in use"))), s', w', [])
    ∧ serial s' = Some p
    ∧ serial_open w' = true
    ∧ listener s' = None
    ∧ listening w' = listening fresh_world.
Proof.
  apply (C10_Start_leaves_serial_open Scenario.port_taken Scenario.server0
           fresh_world (OSError "bind: address already in use"));
    reflexivity.
Defined.

(** *** One turn of the range *)

Lemma conn_Write_result (c : Conn) data r (w : World) :
  (conn_Write c data r w).1 = write_result w c r.
Proof. unfold conn_Write, write_result. by destruct (closed (socks w c)). Qed.

Lemma deliver_other (c c' : Conn) data r s w :
  c ≠ c' →
  clients (deliver c' data r s w).1 !! c = clients s !! c
  ∧ socks (deliver c' data r s w).2 c = socks w c.
Proof.
  intros Hne. unfold deliver, conn_Write.
  destruct (closed (socks w c')); [| destruct r]; cbn;
    rewrite ?lookup_delete_ne, ?fn_lookup_insert_ne by done; done.
Qed.

Lemma deliver_ok (c : Conn) data r s w :
  write_result w c r = WOk →
  (deliver c data r s w).1 = s
  ∧ closed (socks (deliver c data r s w).2 c) = false
  ∧ hist (socks (deliver c data r s w).2 c) = hist (socks w c) ++ [Sent data].
Proof.
  unfold write_result, deliver, conn_Write.
  destruct (closed (socks w c)); [done |]. intros ->. cbn.
  by rewrite fn_lookup_insert.
Qed.

Lemma deliver_err (c : Conn) data r s w n e :
  write_result w c r = WErr n e →
  clients (deliver c data r s w).1 !! c = None
  ∧ closed (socks (deliver c data r s w).2 c) = true.
Proof.
  unfold write_result, deliver, conn_Write.
  destruct (closed (socks w c)) eqn:Hc.
  - intros _. cbn. by rewrite lookup_delete_eq, fn_lookup_insert.
  - intros ->. cbn. by rewrite lookup_delete_eq, fn_lookup_insert.
Qed.

Lemma range_clients_other (order : list Conn) data wr (c : Conn) :
  c ∉ order → ∀ s w,
  clients (range_clients order data wr s w).1 !! c = clients s !! c
  ∧ socks (range_clients order data wr s w).2 c = socks w c.
Proof.
  induction order as [| c' order IH]; intros Hc s w; [done |].
  apply not_elem_of_cons in Hc as [Hne Hc]. cbn [range_clients].
  destruct (clients s !! c') eqn:Hreg.
  - destruct (deliver_other c c' data (wr c') s w Hne) as [H1 H2].
    destruct (deliver c' data (wr c') s w) as [s1 w1]. cbn in H1, H2.
    destruct (IH Hc s1 w1) as [H3 H4]. by rewrite H3, H4.
  - by apply IH.
Qed.

(** What a whole range does to one subscriber. *)
Lemma range_clients_at (order : list Conn) data wr (c : Conn) :
  NoDup order → c ∈ order → ∀ s w,
  is_Some (clients s !! c) →
  match write_result w c (wr c) with
  | WOk =>
      clients (range_clients order data wr s w).1 !! c = clients s !! c
      ∧ closed (socks (range_clients order data wr s w).2 c) = false
      ∧ hist (socks (range_clients order data wr s w).2 c)
        = hist (socks w c) ++ [Sent data]
  | WErr _ _ =>
      clients (range_clients order data wr s w).1 !! c = None
      ∧ closed (socks (range_clients order data wr s w).2 c) = true
  end.
Proof.
  induction order as [| c' order IH]; intros Hnd Hin s w Hreg.
  { by apply elem_of_nil in Hin. }
  apply NoDup_cons in Hnd as [Hfresh Hnd]. cbn [range_clients].
  destruct (decide (c = c')) as [<- | Hne].
  - destruct Hreg as [b Hb]. rewrite Hb.
    destruct (write_result w c (wr c)) as [| n e] eqn:Hres.
    + destruct (deliver_ok c data (wr c) s w Hres) as (H1 & H2 & H3).
      destruct (deliver c data (wr c) s w) as [s1 w1]. cbn in H1, H2, H3.
      destruct (range_clients_other order data wr c Hfresh s1 w1) as [H4 H5].
      rewrite H4, H5, H1. done.
    + destruct (deliver_err c data (wr c) s w n e Hres) as (H1 & H2).
      destruct (deliver c data (wr c) s w) as [s1 w1]. cbn in H1, H2.
      destruct (range_clients_other order data wr c Hfresh s1 w1) as [H4 H5].
      by rewrite H4, H5.
  - apply elem_of_cons in Hin as [? | Hin]; [done |].
    destruct (clients s !! c') eqn:Hreg'.
    + destruct (deliver_other c c' data (wr c') s w Hne) as [H1 H2].
      destruct (deliver c' data (wr c') s w) as [s1 w1]. cbn in H1, H2.
      assert (is_Some (clients s1 !! c)) as Hreg1 by by rewrite H1.
      specialize (IH Hnd Hin s1 w1 Hreg1).
      unfold write_result in *. rewrite H2, H1 in IH. exact IH.
    + by apply IH.
Qed.

(** C6: in a broadcast round, whatever the order in which the clients are
    visited and whichever writes fail, a subscriber whose own write
    succeeds has the chunk written to its socket and stays registered and
    open, and a subscriber whose write fails is closed and removed: a
    failure on one subscriber touches that subscriber only. *)
Theorem C6_write_failure_is_isolated
    (order : list Conn) (data : string) (wr : Conn → WriteResult)
    (s : NtripServer) (w : World) (c : Conn) :
  range_order (clients s) order →
  is_Some (clients s !! c) →
  let '(s', w') := range_clients order data wr s w in
  match write_result w c (wr c) with
  | WOk =>
      clients s' !! c = clients s !! c
      ∧ closed (socks w' c) = false
      ∧ hist (socks w' c) = hist (socks w c) ++ [Sent data]
  | WErr _ _ =>
      clients s' !! c = None ∧ closed (socks w' c) = true
  end.
Proof.
  intros [Hnd Hdom] Hreg.
  assert (c ∈ order) as Hin.
  { apply elem_of_dom in Hreg. rewrite <- Hdom in Hreg.
    by apply elem_of_list_to_set in Hreg. }
  pose proof (range_clients_at order data wr c Hnd Hin s w Hreg) as H.
  by destruct (range_clients order data wr s w) as [s' w'].
Qed.

Lemma C6_witness :
  let '(s', w') :=
    range_clients [2; 0; 1] "AB" Scenario.one_fails
      Scenario.three_clients Scenario.three_socks in
  clients s' !! 0 = Some true
  ∧ closed (socks w' 0) = false
  ∧ hist (socks w' 0) = [Sent "AB"].
Proof.
  apply (C6_write_failure_is_isolated [2; 0; 1] "AB" Scenario.one_fails
           Scenario.three_clients Scenario.three_socks 0).
  - apply (bool_decide_unpack
             (range_order (clients Scenario.three_clients) [2; 0; 1])).
    vm_compute. exact I.
  - vm_compute. eexists. reflexivity.
Defined.

(** In that round, subscriber 1 is dropped and the
    subscribers 0 and 2, visited before and after it, have the chunk. *)
Example round_with_one_failure :
  let '(s', w') :=
    range_clients [2; 0; 1] "AB" Scenario.one_fails
      Scenario.three_clients Scenario.three_socks in
  clients s' !! 0 = Some true
  ∧ clients s' !! 1 = None
  ∧ clients s' !! 2 = Some true
  ∧ received (hist (socks w' 0)) = "AB"
  ∧ received (hist (socks w' 2)) = "AB"
  ∧ closed (socks w' 1) = true.
Proof. vm_compute. repeat split; reflexivity. Qed.

(** *** The outer loop *)

Lemma deliver_serial_reads (c : Conn) data r s w :
  serial_reads (deliver c data r s w).2 = serial_reads w.
Proof.
  unfold deliver, conn_Write.
  destruct (closed (socks w c)); [| destruct r]; done.
Qed.

Lemma range_clients_serial_reads (order : list Conn) data wr :
  ∀ s w, serial_reads (range_clients order data wr s w).2 = serial_reads w.
Proof.
  induction order as [| c order IH]; intros s w; [done |].
  cbn [range_clients]. destruct (clients s !! c); [| apply IH].
  pose proof (deliver_serial_reads c data (wr c) s w) as H.
  destruct (deliver c data (wr c) s w) as [s1 w1]. cbn in H.
  by rewrite IH.
Qed.

(** No turn of the body leaves the loop, and each makes one read. *)
Lemma readSerialData_body_next (t : turn) s w :
  ∃ s' w', readSerialData_body t s w = (Next, s', w')
           ∧ serial_reads w' = S (serial_reads w).
Proof.
  unfold readSerialData_body. destruct (rd t) as [data | err].
  - pose proof (range_clients_serial_reads (order t) data (wr t) s (count_read w)) as H.
    destruct (range_clients _ _ _ _ _) as [s' w']. by eexists _, _.
  - by eexists _, _.
Qed.

Lemma readSerialData_goes_on (turns : list turn) :
  ∀ s w, ∃ s' w', readSerialData turns s w = (Next, s', w')
                  ∧ serial_reads w' = serial_reads w + length turns.
Proof.
  induction turns as [| t turns IH]; intros s w.
  - eexists _, _. split; [done |]. cbn. lia.
  - cbn [readSerialData].
    destruct (readSerialData_body_next t s w) as (s1 & w1 & -> & H1).
    destruct (IH s1 w1) as (s' & w' & -> & H2).
    eexists _, _. split; [done |]. cbn [length]. lia.
Qed.

(** C2, as the specification has it, fails: a serial read fails, the loop
    does not leave, reads again, and broadcasts the chunk of the second
    read to the subscribers. *)
Lemma C2_counterexample :
  (readSerialData_body Scenario.unplugged
     Scenario.three_clients Scenario.three_socks).1.1 ≠ Exit
  ∧ let '(f, _, w') :=
      readSerialData [Scenario.unplugged; Scenario.chunk_AB]
        Scenario.three_clients Scenario.three_socks in
    f = Next ∧ serial_reads w' = 2 ∧ received (hist (socks w' 0)) = "AB".
Proof. split; [discriminate |]. vm_compute. repeat split; reflexivity. Qed.

(** C2, amended: when a serial read returns an error, the loop logs it and
    goes on to the next read.  That turn writes to no subscriber and
    changes nothing but the log and the count of reads; the loop does not
    exit, and every later read of the source is made. *)
Theorem C2_source_error_logged_and_retried
    (t : turn) (turns : list turn) (s : NtripServer) (w : World) (e : error) :
  rd t = ReadErr e →
  let w1 := log_printf (Printf "Error reading from serial port: %v" [ArgV e])
              (count_read w) in
  readSerialData_body t s w = (Next, s, w1)
  ∧ readSerialData (t :: turns) s w = readSerialData turns s w1
  ∧ ∃ s' w', readSerialData (t :: turns) s w = (Next, s', w')
             ∧ serial_reads w' = serial_reads w + S (length turns).
Proof.
  intros He w1.
  assert (readSerialData_body t s w = (Next, s, w1)) as Hb.
  { unfold readSerialData_body. by rewrite He. }
  split; [exact Hb |]. split.
  - cbn [readSerialData]. by rewrite Hb.
  - destruct (readSerialData_goes_on (t :: turns) s w) as (s' & w' & E & H).
    exists s', w'. split; [exact E |]. cbn [length] in H. lia.
Qed.

Lemma C2_witness :
  let w1 := log_printf (Printf "Error reading from serial port: %v"
                          [ArgV (OSError "input/output error")])
              (count_read Scenario.three_socks) in
  readSerialData_body Scenario.unplugged Scenario.three_clients
    Scenario.three_socks = (Next, Scenario.three_clients, w1)
  ∧ readSerialData [Scenario.unplugged; Scenario.chunk_AB]
      Scenario.three_clients Scenario.three_socks
    = readSerialData [Scenario.chunk_AB] Scenario.three_clients w1
  ∧ ∃ s' w', readSerialData [Scenario.unplugged; Scenario.chunk_AB]
               Scenario.three_clients Scenario.three_socks = (Next, s', w')
             ∧ serial_reads w' = serial_reads Scenario.three_socks + 2.
Proof.
  apply (C2_source_error_logged_and_retried Scenario.unplugged
           [Scenario.chunk_AB] Scenario.three_clients Scenario.three_socks
           (OSError "input/output error")).
  reflexivity.
Defined.

(** *** handleClient *)

Lemma keep_alive_drains (pending : string) (c : Conn) :
  ∀ w, closed (socks w c) = false → inbox (socks w c) = pending →
  hist (socks (keep_alive pending c w) c)
    = hist (socks w c) ++ (Recv <$> bytes pending)
  ∧ inbox (socks (keep_alive pending c w) c) = EmptyString
  ∧ closed (socks (keep_alive pending c w) c) = false.
Proof.
  induction pending as [| b pending IH]; intros w Hopen Hin.
  - cbn [keep_alive]. unfold conn_Read1. rewrite Hopen, Hin.
    destruct (is_EOF _); cbn; by rewrite app_nil_r, ?Hin, ?Hopen.
  - cbn [keep_alive]. unfold conn_Read1. rewrite Hopen, Hin.
    match goal with |- context [keep_alive pending c ?w1] =>
      destruct (IH w1) as (H1 & H2 & H3)
    end.
    + cbn. by rewrite fn_lookup_insert.
    + cbn. by rewrite fn_lookup_insert.
    + rewrite H1, H2, H3. cbn. rewrite fn_lookup_insert. cbn.
      by rewrite <- app_assoc.
Qed.

Lemma conn_Write_open (c : Conn) data r (w : World) :
  closed (socks w c) = false →
  ∃ w1, conn_Write c data r w = (r, w1)
        ∧ inbox (socks w1 c) = inbox (socks w c)
        ∧ hist (socks w1 c) = hist (socks w c) ++ [Sent (written r data)]
        ∧ closed (socks w1 c) = false.
Proof.
  intros Hopen. unfold conn_Write. rewrite Hopen. eexists. split; [done |].
  cbn. by rewrite fn_lookup_insert.
Qed.

Lemma conn_Close_hist (c : Conn) (w : World) :
  hist (socks (conn_Close c w) c) = hist (socks w c).
Proof. unfold conn_Close. cbn. by rewrite fn_lookup_insert. Qed.

Lemma conn_Close_inbox (c : Conn) (w : World) :
  inbox (socks (conn_Close c w) c) = inbox (socks w c).
Proof. unfold conn_Close. cbn. by rewrite fn_lookup_insert. Qed.

Lemma conn_Close_closed (c : Conn) (w : World) :
  closed (socks (conn_Close c w) c) = true.
Proof. unfold conn_Close. cbn. by rewrite fn_lookup_insert. Qed.

(** C7, as the specification has it, fails: the peer has sent the request
    of the client; [handleClient] writes the greeting first, and nothing
    of the request line has been read when it does. *)
Lemma C7_counterexample :
  let '(_, w') := handleClient 0 WOk Scenario.one_client Scenario.one_sock in
  consumed_before_greeting ("GET /RTCM3 HTTP/1.0" +:+ CRLF)
    (hist (socks w' 0)) = false
  ∧ read_before_sent (hist (socks w' 0)) = EmptyString
  ∧ head (hist (socks w' 0)) = Some (Sent header).
Proof. vm_compute. repeat split; reflexivity. Qed.

(** C7, amended: for every accepted connection, [handleClient] writes the
    greeting without having read anything from the socket; when that
    write succeeds it then reads what the client sent, the request line
    included, one byte at a time and discards it, until the read fails;
    it then closes the connection and removes it from the clients. *)
Theorem C7_greeting_written_before_reading
    (c : Conn) (gr : WriteResult) (s : NtripServer) (w : World) :
  closed (socks w c) = false →
  let '(s', w') := handleClient c gr s w in
  hist (socks w' c)
    = hist (socks w c)
      ++ Sent (written gr header)
      :: match gr with
         | WOk => Recv <$> bytes (inbox (socks w c))
         | WErr _ _ => []
         end
  ∧ inbox (socks w' c)
    = match gr with
      | WOk => EmptyString
      | WErr _ _ => inbox (socks w c)
      end
  ∧ closed (socks w' c) = true
  ∧ clients s' = delete c (clients s).
Proof.
  intros Hopen.
  destruct (conn_Write_open c header gr w Hopen) as (w1 & E & Hi & Hh & Hc).
  unfold handleClient. rewrite E. destruct gr as [| n e].
  - destruct (keep_alive_drains (inbox (socks w1 c)) c w1 Hc eq_refl)
      as (H1 & H2 & H3).
    rewrite conn_Close_hist, conn_Close_inbox, conn_Close_closed.
    rewrite H1, H2, Hh, Hi, <- app_assoc. done.
  - rewrite conn_Close_hist, conn_Close_inbox, conn_Close_closed.
    cbn [log_printf socks]. rewrite Hh, Hi. done.
Qed.

Lemma C7_witness :
  let '(s', w') := handleClient 0 WOk Scenario.one_client Scenario.one_sock in
  hist (socks w' 0)
    = hist (socks Scenario.one_sock 0)
      ++ Sent (written WOk header)
      :: (Recv <$> bytes (inbox (socks Scenario.one_sock 0)))
  ∧ inbox (socks w' 0) = EmptyString
  ∧ closed (socks w' 0) = true
  ∧ clients s' = delete 0 (clients Scenario.one_client).
Proof.
  apply (C7_greeting_written_before_reading 0 WOk Scenario.one_client
           Scenario.one_sock).
  reflexivity.
Defined.

End ServerProperties.

(** ** The goroutines together *)
Section Interleavings.

Import Server.

(** A broadcast round of [readSerialData] is the schedule that lets the
    broadcast loop alone run through its range. *)
Lemma run_range (data : string) (wr : Conn → WriteResult) (a : apc)
    (hs : gmap Conn hpc) :
  ∀ (pending : list Conn) (s : NtripServer) (w : World),
  run ((λ c, Iterate (wr c)) <$> pending)
    {| srv := s; world := w; bcast := range_pc data pending; acc := a;
       handlers := hs |}
  = Some {| srv := (range_clients pending data wr s w).1;
            world := (range_clients pending data wr s w).2;
            bcast := BRead; acc := a; handlers := hs |}.
Proof.
  induction pending as [| c pending IH]; intros s w; [done |].
  cbn [fmap list_fmap run step range_pc bcast srv world acc handlers
       range_clients].
  destruct (clients s !! c).
  - destruct (deliver c data (wr c) s w) as [s1 w1]. apply IH.
  - apply IH.
Qed.

(** No step of the accept loop or of a handler waits for the broadcast
    loop: whatever the broadcast loop is doing, [s.clients[conn] = true]
    and the deferred [delete(s.clients, conn)] take their step. *)
Lemma register_never_waits (σ : Sys) (c : Conn) :
  acc σ = ARegister c →
  ∃ σ', step Register σ = Some σ'
        ∧ bcast σ' = bcast σ
        ∧ clients (srv σ') = <[c := true]> (clients (srv σ)).
Proof. intros H. unfold step. rewrite H. by eexists. Qed.

Lemma deferred_delete_never_waits (σ : Sys) (c : Conn) (gr : WriteResult) :
  handlers σ !! c = Some HDefer →
  ∃ σ', step (Handle c gr) σ = Some σ'
        ∧ bcast σ' = bcast σ
        ∧ clients (srv σ') = delete c (clients (srv σ)).
Proof. intros H. unfold step. rewrite H. by eexists. Qed.

(** C1: the clients map is written while the broadcast loop ranges over
    it.  After the schedule [mid_round] the range over the subscribers 0
    and 1 is under way, subscriber 1 still to be visited; the accept loop
    stands before [s.clients[conn] = true] and the handler of subscriber
    1 before its deferred [delete].  Both can take their step at once:
    the first adds connection 2 to the map, the second removes
    subscriber 1 from it, and the range is still under way afterwards. *)
Theorem C1_clients_mutated_during_range :
  ∃ σ, run Scenario.mid_round Scenario.started = Some σ
    ∧ bcast σ = BRange "AB" [1]
    ∧ iterating σ = true
    ∧ clients (srv σ) = <[0 := true]> (<[1 := true]> ∅)
    ∧ (mutates Register σ = true
       ∧ ∃ σ', step Register σ = Some σ'
               ∧ iterating σ' = true
               ∧ clients (srv σ') = <[2 := true]> (clients (srv σ)))
    ∧ (mutates (Handle 1 WOk) σ = true
       ∧ ∃ σ', step (Handle 1 WOk) σ = Some σ'
               ∧ bcast σ' = BRange "AB" [1]
               ∧ clients (srv σ') = delete 1 (clients (srv σ))).
Proof.
  eexists. split; [vm_compute; reflexivity |].
  repeat split; try (vm_compute; reflexivity);
    eexists; (split; [vm_compute; reflexivity |]);
    split; vm_compute; reflexivity.
Qed.

(** C4: a chunk reaches a subscriber before its greeting.  The connection
    is accepted and registered, a chunk is read and broadcast, and only
    then does the handler of the connection write the header: the peer
    receives [AB] and then [ICY 200 OK], and the client of this
    repository rejects such a stream. *)
Theorem C4_chunk_written_before_greeting :
  ∃ σ, run Scenario.data_first Scenario.started = Some σ
    ∧ hist (socks (world σ) 0) = [Sent "AB"; Sent header]
    ∧ greeting_first (hist (socks (world σ) 0)) = false
    ∧ (Client.Connect Scenario.alice
         (Scenario.answering (received (hist (socks (world σ) 0))))
         Client.empty_world).1
      = Return (Some (Errorf "invalid server response: %s"
                        (ArgS ("AB" +:+ header)))).
Proof.
  eexists. split; [vm_compute; reflexivity |].
  repeat split; vm_compute; reflexivity.
Qed.

End Interleavings.
